(** * CAT Tiles API: a shallow embedding of [api.py]

    [api.py] is a FastAPI application that configures GDAL through the
    process environment, installs a logging middleware, registers the routes
    of TiTiler's [TilerFactory] behind a custom path dependency, and adds a
    health endpoint and a GCS probe endpoint.

    The embedding follows the module top to bottom.  Python [str] values are
    strings of UTF-8 bytes; [os.environ] is a finite map from strings to
    strings; the [logging] output is the list of emitted records; handlers
    are state transformers over a [World].  What the module imports and does
    not define (TiTiler's route handlers, Starlette's CORS middleware,
    [rasterio.open], [urllib.parse.unquote]) is a parameter of the
    development. *)

From Stdlib Require Import String Ascii ZArith List Bool.
From Stdlib Require Import Floats.PrimFloat.
From stdpp Require Import base option list gmap strings.
Import ListNotations.

Local Open Scope string_scope.
Local Open Scope Z_scope.

(** ** Python values and strings *)

(** [str.startswith(prefix)] on byte strings. *)
Fixpoint startswith (s p : string) : bool :=
  match p with
  | EmptyString => true
  | String c p' =>
      match s with
      | EmptyString => false
      | String d s' => if Ascii.eqb c d then startswith s' p' else false
      end
  end.

(** [s.startswith((p1, ..., pn))]: true when one of the prefixes matches. *)
Definition startswith_any (s : string) (ps : list string) : bool :=
  existsb (startswith s) ps.

(** Truth value of a [str]: the empty string is falsy. *)
Definition truthy (s : string) : bool :=
  match s with EmptyString => false | String _ _ => true end.

(** Truth value of the result of [dict.get]: [None] and [''] are falsy. *)
Definition truthy_opt (o : option string) : bool :=
  match o with None => false | Some s => truthy s end.

(** [str(b)] and the f-string rendering of a [bool]. *)
Definition str_bool (b : bool) : string := if b then "True" else "False".

(** The f-string rendering of an [Optional[str]]. *)
Definition str_opt (o : option string) : string :=
  match o with None => "None" | Some s => s end.

(** [repr] of a [str] that holds no quote, backslash or control character
    (the case of every constant it is applied to below). *)
Definition repr_str (s : string) : string := "'" +:+ s +:+ "'".

(** [repr] of a list of such strings. *)
Definition repr_list (l : list string) : string :=
  "[" +:+ String.concat ", " (map repr_str l) +:+ "]".

(** [c * n] for a one-character string. *)
Fixpoint str_repeat (c : string) (n : nat) : string :=
  match n with O => "" | S n' => c +:+ str_repeat c n' end.

(** The JSON-like values the handlers return. *)
#[local] Unset Elimination Schemes.
Inductive pyval : Type :=
| PNone
| PBool (b : bool)
| PInt (n : Z)
| PFloat (x : float)
| PStr (s : string)
| PTuple (xs : list pyval)
| PDict (items : list (string * pyval)).
#[local] Set Elimination Schemes.

(** [d[k]] on a dict literal, kept in insertion order. *)
Fixpoint dict_get (k : string) (items : list (string * pyval)) : option pyval :=
  match items with
  | [] => None
  | (k', v) :: rest => if String.eqb k k' then Some v else dict_get k rest
  end.

(** [v[k]] when [v] is a dict. *)
Definition field (k : string) (v : pyval) : option pyval :=
  match v with PDict items => dict_get k items | _ => None end.

Definition of_opt_str (o : option string) : pyval :=
  match o with None => PNone | Some s => PStr s end.

(** ** Collaborators' data *)

(** A raised exception: [str_exc] is what [str(e)] returns, and
    [is_Exception] tells whether it is an instance of [Exception], the
    class an [except Exception] clause catches ([KeyboardInterrupt],
    [SystemExit] and the like are not). *)
Record PyException : Type := { str_exc : string; is_Exception : bool }.

(** [fastapi.HTTPException]. *)
Record HTTPException : Type := { status_code : Z; detail : string }.

(** [rasterio.coords.BoundingBox]. *)
Record BoundingBox : Type :=
  { left : float; bottom : float; right : float; top : float }.

(** The attributes of a rasterio dataset that [api.py] reads, as values;
    [crs] holds [str(src.crs)]. *)
Record Dataset : Type :=
  { driver : string; width : Z; height : Z; crs : string; bounds : BoundingBox }.

(** What [api.py] uses of rasterio.  [src] ranges over the open dataset
    objects.  Every call acts on the world outside the process and either
    raises or returns; [rasterio_open] also reads GDAL's configuration from
    the environment.  [src_crs_str] is [str(src.crs)]; [src_exit] is the
    dataset's [__exit__], which closes it and does not swallow an exception
    raised in the [with] block. *)
Record Rasterio {Net : Type} : Type :=
  { src : Type;
    rasterio_open :
      gmap string string -> string -> Net -> (PyException + src) * Net;
    src_driver : src -> Net -> (PyException + string) * Net;
    src_width : src -> Net -> (PyException + Z) * Net;
    src_height : src -> Net -> (PyException + Z) * Net;
    src_crs_str : src -> Net -> (PyException + string) * Net;
    src_bounds : src -> Net -> (PyException + BoundingBox) * Net;
    src_exit : src -> Net -> (PyException + unit) * Net }.
Arguments Rasterio : clear implicits.

(** How a call of an endpoint function ends: it returns a value, raises an
    [HTTPException], or lets another exception through. *)
Inductive Outcome : Type :=
| Returned (v : pyval)
| RaisedHTTP (h : HTTPException)
| Propagated (e : PyException).

(** What the module reads of a Starlette [Request]. *)
Record Request : Type :=
  { method : string;
    path : string;                      (* request.url.path *)
    query_params : gmap string string   (* request.query_params *) }.

Inductive Level : Type := INFO | ERROR.

(** ** Module constants *)

Definition SUPPRESS_TILEMATRIX_WARNINGS : bool := true.

Definition CORS_ORIGINS : list string :=
  [ "https://michaelakridge-noaa.github.io";
    "http://localhost:8000";
    "http://localhost:5500";
    "http://127.0.0.1:8000";
    "*" ].

(** The path prefixes for which the middleware logs. *)
Definition LOGGED_PREFIXES : list string :=
  [ "/tiles/"; "/info"; "/bounds"; "/statistics"; "/preview" ].

(** The GDAL settings written at import, in source order. *)
Definition configure_gdal (env : gmap string string) : gmap string string :=
  <["GS_NO_SIGN_REQUEST" := "YES"]>
  (<["GDAL_HTTP_CONNECTTIMEOUT" := "60"]>
  (<["GDAL_HTTP_TIMEOUT" := "300"]>
  (<["CPL_VSIL_CURL_ALLOWED_EXTENSIONS" := ".tif,.tiff"]>
  (<["GDAL_DISABLE_READDIR_ON_OPEN" := "EMPTY_DIR"]> env)))).

(** [os.getenv("FASTAPI_ROOT_PATH", "/cat-tiles")]. *)
Definition root_path (env : gmap string string) : string :=
  default "/cat-tiles" (env !! "FASTAPI_ROOT_PATH").

(** ** Handlers as state transformers *)

(** The state a handler runs in.  [Net] is everything outside the process
    (the object store, GDAL's handles); [opened] is a ghost trace of the
    arguments [rasterio.open] was called with. *)
Record World {Net : Type} : Type := mkWorld
  { environ : gmap string string;
    logged : list (Level * string);
    opened : list string;
    net : Net }.
Arguments World : clear implicits.
Arguments mkWorld {Net} _ _ _ _.

Definition Action (Net A : Type) : Type := World Net -> A * World Net.

#[global] Instance Action_ret {Net} : MRet (Action Net) := fun A a w => (a, w).
#[global] Instance Action_bind {Net} : MBind (Action Net) :=
  fun A B f m w => let '(a, w') := m w in f a w'.

(** Appending records to the log. *)
Definition emit {Net} (recs : list (Level * string)) (w : World Net) : World Net :=
  {| environ := environ w; logged := logged w ++ recs;
     opened := opened w; net := net w |}.

(** [logger.info] / [logger.error]. *)
Definition log {Net} (lvl : Level) (msg : string) : Action Net unit :=
  fun w => (tt, emit [(lvl, msg)] w).

(** [os.environ.get(k)]. *)
Definition getenv {Net} (k : string) : Action Net (option string) :=
  fun w => (environ w !! k, w).

(** An action that leaves [os.environ] as it found it. *)
Definition keeps_environ {Net A} (m : Action Net A) : Prop :=
  forall w, environ (snd (m w)) = environ w.

(** ** Sample collaborators, used to run the handlers on concrete inputs *)

Module Demo.

(** The outside world is the number of reads made against the store. *)
Definition unquote (s : string) : string := s.

Definition sample : Dataset :=
  {| driver := "GTiff"; width := 512; height := 256; crs := "EPSG:4326";
     bounds := {| left := 0.5%float; bottom := 1.5%float;
                  right := 2.5%float; top := 3.5%float |} |}.

(** A file that opens but whose coordinate system cannot be rendered. *)
Definition broken : Dataset :=
  {| driver := "GTiff"; width := 512; height := 256; crs := "";
     bounds := bounds sample |}.

(** The sample store: one good file, one broken file, one whose opening is
    interrupted from the keyboard; nothing else exists.  Each call is one
    read. *)
Definition rasterio : Rasterio nat :=
  {| src := Dataset;
     rasterio_open := fun env url n =>
       if String.eqb url "gs://bucket/ok.tif" then (inr sample, S n)
       else if String.eqb url "gs://bucket/broken.tif" then (inr broken, S n)
       else if String.eqb url "gs://bucket/interrupt.tif" then
         (inl {| str_exc := "KeyboardInterrupt"; is_Exception := false |}, S n)
       else (inl {| str_exc := "No such file"; is_Exception := true |}, S n);
     src_driver := fun d n => (inr (driver d), n);
     src_width := fun d n => (inr (width d), n);
     src_height := fun d n => (inr (height d), n);
     src_crs_str := fun d n =>
       if String.eqb (crs d) ""
       then (inl {| str_exc := "CRS is invalid"; is_Exception := true |}, n)
       else (inr (crs d), n);
     src_bounds := fun d n => (inr (bounds d), n);
     src_exit := fun d n => (inr tt, n) |}.

(** A tiler that answers with the path it was given and reads once. *)
Definition tiler (src_path : string) (request : Request) : Action nat string :=
  fun w => (src_path, {| environ := environ w; logged := logged w;
                         opened := opened w; net := S (net w) |}).

Definition cors (origins : list string)
    (inner : Request -> Action nat string) (request : Request) : Action nat string :=
  inner request.

Definition unprocessable : string := "422".

Definition json_response (v : pyval) : string :=
  match v with PDict _ => "200 dict" | _ => "200" end.

Definition exception_response (e : HTTPException) : string := detail e.

Definition uncaught (e : PyException) : string := str_exc e.

Definition w0 : World nat :=
  {| environ := ∅; logged := []; opened := []; net := O |}.

Definition info_request : Request :=
  {| method := "GET"; path := "/info";
     query_params := {[ "url" := "gs://bucket/ok.tif" ]} |}.

End Demo.

(** ** The module *)

Section Api.

Context {Net : Type}.
(** What a handler hands back to its caller: the response Starlette or
    TiTiler built, or the exception it let through. *)
Context {Response : Type}.

Abbreviation M := (Action Net).

(** *** Imported collaborators *)

(** [urllib.parse.unquote]. *)
Variable unquote : string -> string.

(** The [rasterio] module. *)
Variable rasterio : Rasterio Net.

(** A route handler of [TilerFactory(...).router], called with the value
    the path dependency returned. *)
Variable tiler : string -> Request -> M Response.

(** Starlette's [CORSMiddleware] configured with [allow_origins]. *)
Variable cors : list string -> (Request -> M Response) -> Request -> M Response.

(** FastAPI's answer when the required query parameter [url] is absent. *)
Variable unprocessable : Response.

(** Whether [BASE_DIR / "images"] exists, and its path. *)
Variable images_dir : string.
Variable images_dir_exists : bool.

(** *** Module initialisation (import time) *)

(** Runs the module body and returns the global [root_path]. *)
Definition module_init : M string :=
  fun w0 =>
    let w := {| environ := configure_gdal (environ w0); logged := logged w0;
                opened := opened w0; net := net w0 |} : World Net in
    (rp ← (fun w => (root_path (environ w), w));
     gcs_creds ← getenv "GOOGLE_APPLICATION_CREDENTIALS";
     (if truthy_opt gcs_creds then
        log INFO ("✅ GCS credentials found: " +:+ str_opt gcs_creds);;
        log INFO "📌 Will use authenticated access for GCS (credentials take precedence)"
      else
        log INFO "ℹ️ No GOOGLE_APPLICATION_CREDENTIALS set";;
        no_sign ← getenv "GS_NO_SIGN_REQUEST";
        log INFO ("📌 Using anonymous/public access for GCS buckets (GS_NO_SIGN_REQUEST="
                  +:+ str_opt no_sign +:+ ")"));;
     (if images_dir_exists then
        log INFO ("📁 Mounted images directory: " +:+ images_dir)
      else mret tt);;
     mret rp) w.

(** The part of [lifespan] that runs before the first request. *)
Definition lifespan_startup (rp : string) : M unit :=
  log INFO (str_repeat "=" 80);;
  log INFO "🚀 CAT Tiles API Starting Up";;
  log INFO (str_repeat "=" 80);;
  log INFO ("📍 Root Path: " +:+ rp);;
  log INFO ("🌐 CORS Origins: " +:+ repr_list CORS_ORIGINS);;
  no_sign ← getenv "GS_NO_SIGN_REQUEST";
  log INFO ("☁️ GCS Public Access: " +:+ str_opt no_sign);;
  log INFO ("📝 Docs available at: " +:+ rp +:+ "/docs");;
  log INFO (str_repeat "=" 80).

(** The part of [lifespan] that runs at shutdown. *)
Definition lifespan_shutdown : M unit :=
  log INFO "🛑 CAT Tiles API Shutting Down".

Definition startup : M unit := rp ← module_init; lifespan_startup rp.

(** *** Middleware for path handling *)

Definition log_and_handle_gcs_paths
    (request : Request) (call_next : Request -> M Response) : M Response :=
  (if startswith_any (path request) LOGGED_PREFIXES then
     match query_params request !! "url" with
     | Some url_param =>
         if truthy url_param then
           let decoded_url := unquote url_param in
           log INFO ("🔍 TiTiler request: " +:+ path request);;
           log INFO ("   Original URL param: " +:+ url_param);;
           log INFO ("   Decoded URL: " +:+ decoded_url);;
           let is_url := startswith_any decoded_url ["http://"; "https://"] in
           let is_gcs := startswith decoded_url "gs://" in
           let is_vsigs := startswith decoded_url "/vsigs/" in
           log INFO ("   Flags: url=" +:+ str_bool is_url +:+ ", gcs="
                     +:+ str_bool is_gcs +:+ ", vsigs=" +:+ str_bool is_vsigs);;
           log INFO "   ✅ Path passed through to TiTiler"
         else mret tt
     | None => mret tt
     end
   else mret tt);;
  response ← call_next request;
  mret response.

(** *** Custom path dependency for TiTiler *)

Definition GCSPathParams (url : string) : M string :=
  log INFO ("🔧 GCSPathParams received: " +:+ url);;
  mret url.

(** *** TiTiler factory *)

(** A route of [cog.router]: FastAPI resolves the path dependency from the
    required query parameter [url], then calls TiTiler's handler with what
    the dependency returned. *)
Definition cog (request : Request) : M Response :=
  match query_params request !! "url" with
  | Some url => src_path ← GCSPathParams url; tiler src_path request
  | None => mret unprocessable
  end.

(** The behaviour the wrapper is compared with: TiTiler's route invoked with
    the request's [url] parameter passed through unchanged. *)
Definition titiler_passthrough (request : Request) : M Response :=
  match query_params request !! "url" with
  | Some url => tiler url request
  | None => mret unprocessable
  end.

(** *** Health check *)

Definition health_check : M pyval :=
  no_sign ← getenv "GS_NO_SIGN_REQUEST";
  readdir ← getenv "GDAL_DISABLE_READDIR_ON_OPEN";
  exts ← getenv "CPL_VSIL_CURL_ALLOWED_EXTENSIONS";
  no_sign' ← getenv "GS_NO_SIGN_REQUEST";
  mret (PDict
    [ ("status", PStr "healthy");
      ("message", PStr "CAT Tiles API is operational");
      ("gcs_enabled", PBool (bool_decide (no_sign = Some "YES")));
      ("gdal_config", PDict
         [ ("GDAL_DISABLE_READDIR_ON_OPEN", of_opt_str readdir);
           ("CPL_VSIL_CURL_ALLOWED_EXTENSIONS", of_opt_str exts);
           ("GS_NO_SIGN_REQUEST", of_opt_str no_sign') ]) ]).

(** *** Test endpoint *)

Definition DEFAULT_BUCKET : string := "nmfs_odp_pifsc".
Definition DEFAULT_FILE_PATH : string :=
  "PIFSC/ESD/ARP/StRS_Sites_Products/orthomosaic_cog/2025_GUA-2838_mos_cog.tif".

(** A call into rasterio: it acts on the outside world only. *)
Definition call {A} (op : Net -> A * Net) : M A :=
  fun w =>
    let '(a, n) := op (net w) in
    (a, {| environ := environ w; logged := logged w;
           opened := opened w; net := n |}).

(** Statements in sequence inside a block: the first exception raised ends
    the block. *)
Definition and_then {A B}
    (m : M (PyException + A)) (k : A -> M (PyException + B)) : M (PyException + B) :=
  r ← m;
  match r with
  | inl e => mret (inl e)
  | inr a => k a
  end.

(** The call [rasterio.open(url)], recorded in the ghost trace. *)
Definition open_dataset (url : string) : M (PyException + src rasterio) :=
  fun w =>
    let '(r, n) := rasterio_open rasterio (environ w) url (net w) in
    (r, {| environ := environ w; logged := logged w;
           opened := opened w ++ [url]; net := n |}).

Definition bounds_value (b : BoundingBox) : pyval :=
  PTuple [PFloat (left b); PFloat (bottom b); PFloat (right b); PFloat (top b)].

(** The dict display of the [return] statement, evaluated left to right:
    each attribute read may raise. *)
Definition answer (test_url : string) (s : src rasterio) : M (PyException + pyval) :=
  and_then (call (src_driver rasterio s)) (fun driver =>
  and_then (call (src_width rasterio s)) (fun width =>
  and_then (call (src_height rasterio s)) (fun height =>
  and_then (call (src_crs_str rasterio s)) (fun crs =>
  and_then (call (src_bounds rasterio s)) (fun bounds =>
  mret (inr (PDict
    [ ("status", PStr "success");
      ("url", PStr test_url);
      ("driver", PStr driver);
      ("width", PInt width);
      ("height", PInt height);
      ("crs", PStr crs);
      ("bounds", bounds_value bounds) ]))))))).

(** [with rasterio.open(url) as src: body].  When opening raises, nothing
    else runs.  Otherwise [__exit__] runs once, whether the body returned or
    raised: an exception it raises replaces the body's, and otherwise the
    body's result or exception stands. *)
Definition with_open {A}
    (url : string) (body : src rasterio -> M (PyException + A)) : M (PyException + A) :=
  r ← open_dataset url;
  match r with
  | inl e => mret (inl e)
  | inr s =>
      v ← body s;
      x ← call (src_exit rasterio s);
      mret (match x with
            | inl e => inl e
            | inr _ => v
            end)
  end.

(** The whole [with] statement sits in the [try]; [except Exception] turns
    an instance of [Exception] into a logged [HTTPException] and lets any
    other exception through. *)
Definition test_gcs_access (bucket file_path : string) : M Outcome :=
  let test_url := "gs://" +:+ bucket +:+ "/" +:+ file_path in
  r ← with_open test_url (answer test_url);
  match r with
  | inr result => mret (Returned result)
  | inl e =>
      if is_Exception e then
        log ERROR ("❌ Failed to access GCS file: " +:+ str_exc e);;
        mret (RaisedHTTP {| status_code := 500;
                            detail := "Failed to access GCS file: " +:+ str_exc e |})
      else mret (Propagated e)
  end.


(** *** The served application *)

(** FastAPI's rendering of a handler's result, and an exception as the
    caller of the handler sees it. *)
Variable json_response : pyval -> Response.
Variable exception_response : HTTPException -> Response.
Variable uncaught : PyException -> Response.

(** The route a request was matched to: [/health], [/test-gcs], or one of
    the routes of [cog.router].  (The root page, the docs and the static
    files neither read nor write the world.) *)
Inductive Endpoint : Type :=
| EpHealth
| EpTestGcs
| EpCog.

(** The handler behind a route; the query parameters of [/test-gcs] fall
    back to their defaults. *)
Definition endpoint (e : Endpoint) (request : Request) : M Response :=
  match e with
  | EpHealth => v ← health_check; mret (json_response v)
  | EpTestGcs =>
      let bucket := default DEFAULT_BUCKET (query_params request !! "bucket") in
      let file_path :=
        default DEFAULT_FILE_PATH (query_params request !! "file_path") in
      r ← test_gcs_access bucket file_path;
      mret (match r with
            | Returned v => json_response v
            | RaisedHTTP exn => exception_response exn
            | Propagated e => uncaught e
            end)
  | EpCog => cog request
  end.

(** Middleware added later runs first: the logging middleware wraps
    [CORSMiddleware], which wraps the router. *)
Definition serve (e : Endpoint) (request : Request) : M Response :=
  log_and_handle_gcs_paths request (cors CORS_ORIGINS (endpoint e)).

(** The worlds the process goes through: import and lifespan startup from
    any initial world, then any sequence of requests to these routes. *)
Inductive reachable : World Net -> Prop :=
| reach_startup (w0 : World Net) : reachable (snd (startup w0))
| reach_serve (e : Endpoint) (request : Request) (w : World Net) :
    reachable w -> reachable (snd (serve e request w)).

(** What CAT-tiles assumes of the imported handlers: they do not write
    to [os.environ]. *)
Definition tiler_keeps_environ : Prop :=
  forall src_path request, keeps_environ (tiler src_path request).

Definition cors_keeps_environ : Prop :=
  forall origins inner,
    (forall request, keeps_environ (inner request)) ->
    forall request, keeps_environ (cors origins inner request).

(** Both GDAL HTTP limits are present in the environment. *)
Definition timeouts_configured (w : World Net) : Prop :=
  environ w !! "GDAL_HTTP_TIMEOUT" = Some "300"
  /\ environ w !! "GDAL_HTTP_CONNECTTIMEOUT" = Some "60".

(** Replacing the log. *)
Definition set_logged (l : list (Level * string)) (w : World Net) : World Net :=
  {| environ := environ w; logged := l; opened := opened w; net := net w |}.

(** A handler whose response and effects do not depend on what has been
    logged so far: started with any other log, it gives the same response,
    appends the same records and leaves the rest of the world the same. *)
Definition log_independent (h : Request -> M Response) : Prop :=
  forall request w, exists added,
    forall l,
      h request (set_logged l w)
      = (fst (h request w), set_logged (l ++ added) (snd (h request w))).


(** ** Properties *)

(** *** Running the primitives *)

Lemma emit_nil (w : World Net) : emit [] w = w.
Proof. destruct w; unfold emit; simpl. by rewrite app_nil_r. Qed.

Lemma emit_emit recs1 recs2 (w : World Net) :
  emit recs2 (emit recs1 w) = emit (recs1 ++ recs2) w.
Proof. unfold emit; simpl. by rewrite <- app_assoc. Qed.

Lemma bind_run {A B} (m : M A) (f : A -> M B) (w : World Net) :
  (m ≫= f) w = f (fst (m w)) (snd (m w)).
Proof. unfold mbind, Action_bind. by destruct (m w). Qed.

Lemma run_then_return (m : M Response) (w : World Net) :
  (response ← m; mret response) w = m w.
Proof. rewrite bind_run. unfold mret, Action_ret. by destruct (m w). Qed.

Lemma log_then {A} lvl msg (k : M A) (w : World Net) :
  (log lvl msg;; k) w = k (emit [(lvl, msg)] w).
Proof. reflexivity. Qed.

(** *** Actions that leave the environment alone *)

Lemma keeps_environ_ret {A} (a : A) : keeps_environ (mret a : M A).
Proof. by intros w. Qed.

Lemma keeps_environ_log lvl msg : keeps_environ (log lvl msg : M unit).
Proof. by intros w. Qed.

Lemma keeps_environ_getenv k : keeps_environ (getenv k : M (option string)).
Proof. by intros w. Qed.

Lemma keeps_environ_bind {A B} (m : M A) (f : A -> M B) :
  keeps_environ m -> (forall a, keeps_environ (f a)) -> keeps_environ (m ≫= f).
Proof.
  intros Hm Hf w. rewrite bind_run.
  by rewrite Hf, Hm.
Qed.

Lemma keeps_environ_open url : keeps_environ (open_dataset url).
Proof. intros w. unfold open_dataset. by destruct (rasterio_open _ _ _ _). Qed.

Lemma keeps_environ_call {A} (op : Net -> A * Net) : keeps_environ (call op).
Proof. intros w. unfold call. by destruct (op (net w)). Qed.

Ltac keeps :=
  repeat first
    [ apply keeps_environ_log
    | apply keeps_environ_getenv
    | apply keeps_environ_ret
    | apply keeps_environ_open
    | apply keeps_environ_call
    | apply keeps_environ_bind; [ | intros ? ]
    | match goal with
      | |- keeps_environ (if ?b then _ else _) => destruct b
      | |- keeps_environ (match ?x with _ => _ end) => destruct x
      end
    | assumption ].

Lemma keeps_environ_lifespan rp : keeps_environ (lifespan_startup rp).
Proof. unfold lifespan_startup. keeps. Qed.

Lemma keeps_environ_GCSPathParams url : keeps_environ (GCSPathParams url).
Proof. unfold GCSPathParams. keeps. Qed.

Lemma keeps_environ_health : keeps_environ health_check.
Proof. unfold health_check. keeps. Qed.

Lemma keeps_environ_test_gcs bucket file_path :
  keeps_environ (test_gcs_access bucket file_path).
Proof. unfold test_gcs_access, with_open, answer, and_then. keeps. Qed.

Lemma keeps_environ_middleware request call_next :
  keeps_environ (call_next request) ->
  keeps_environ (log_and_handle_gcs_paths request call_next).
Proof. intros Hnext. unfold log_and_handle_gcs_paths. keeps. Qed.

Lemma keeps_environ_endpoint :
  tiler_keeps_environ -> forall e request, keeps_environ (endpoint e request).
Proof.
  intros Htiler e request.
  destruct e; simpl.
  - apply keeps_environ_bind; [ apply keeps_environ_health | intros; keeps ].
  - apply keeps_environ_bind; [ apply keeps_environ_test_gcs | intros; keeps ].
  - unfold cog. destruct (query_params request !! "url") as [url|].
    + apply keeps_environ_bind;
        [ apply keeps_environ_GCSPathParams | intros src_path; apply Htiler ].
    + apply keeps_environ_ret.
Qed.

Lemma keeps_environ_serve :
  tiler_keeps_environ -> cors_keeps_environ ->
  forall e request, keeps_environ (serve e request).
Proof.
  intros Htiler Hcors e request. unfold serve.
  apply keeps_environ_middleware, Hcors.
  intros request'. by apply keeps_environ_endpoint.
Qed.

(** *** Import and startup *)

Lemma module_init_environ (w0 : World Net) :
  environ (snd (module_init w0)) = configure_gdal (environ w0).
Proof.
  unfold module_init.
  match goal with |- environ (snd (?body ?w)) = _ =>
    assert (Hbody : keeps_environ body) by (keeps; by intros ?)
  end.
  by rewrite Hbody.
Qed.

Lemma startup_environ (w0 : World Net) :
  environ (snd (startup w0)) = configure_gdal (environ w0).
Proof.
  unfold startup. rewrite bind_run.
  by rewrite keeps_environ_lifespan, module_init_environ.
Qed.

Lemma configure_gdal_timeout env :
  configure_gdal env !! "GDAL_HTTP_TIMEOUT" = Some "300".
Proof. unfold configure_gdal. by simplify_map_eq. Qed.

Lemma configure_gdal_connecttimeout env :
  configure_gdal env !! "GDAL_HTTP_CONNECTTIMEOUT" = Some "60".
Proof. unfold configure_gdal. by simplify_map_eq. Qed.

Lemma configure_gdal_no_sign env :
  configure_gdal env !! "GS_NO_SIGN_REQUEST" = Some "YES".
Proof. unfold configure_gdal. by simplify_map_eq. Qed.

(** The module body writes these five variables and no other. *)
Lemma configure_gdal_other env k :
  k ∉ [ "GDAL_DISABLE_READDIR_ON_OPEN"; "CPL_VSIL_CURL_ALLOWED_EXTENSIONS";
        "GDAL_HTTP_TIMEOUT"; "GDAL_HTTP_CONNECTTIMEOUT"; "GS_NO_SIGN_REQUEST" ] ->
  configure_gdal env !! k = env !! k.
Proof.
  intros Hk. unfold configure_gdal.
  repeat (rewrite lookup_insert_ne; [ | intros <-; apply Hk; set_solver ]).
  reflexivity.
Qed.

(** Every world the process goes through carries the environment written
    at import. *)
Lemma reachable_environ :
  tiler_keeps_environ -> cors_keeps_environ ->
  forall w, reachable w ->
  exists w0 : World Net, environ w = configure_gdal (environ w0).
Proof.
  intros Htiler Hcors w Hreach.
  induction Hreach as [ w0 | e request w _ [w0 IH] ].
  - exists w0. apply startup_environ.
  - exists w0. by rewrite keeps_environ_serve.
Qed.

(** *** The wrapper around TiTiler *)

Lemma middleware_forwards request call_next (w : World Net) :
  exists recs,
    log_and_handle_gcs_paths request call_next w = call_next request (emit recs w).
Proof.
  unfold log_and_handle_gcs_paths.
  destruct (startswith_any (path request) LOGGED_PREFIXES);
    [ destruct (query_params request !! "url") as [url_param|];
      [ destruct (truthy url_param) | ] | ].
  - eexists. rewrite bind_run. repeat rewrite log_then.
    unfold log; cbn [fst snd]. rewrite run_then_return.
    repeat rewrite emit_emit. reflexivity.
  - exists []. rewrite bind_run; cbn [fst snd mret Action_ret].
    by rewrite run_then_return, emit_nil.
  - exists []. rewrite bind_run; cbn [fst snd mret Action_ret].
    by rewrite run_then_return, emit_nil.
  - exists []. rewrite bind_run; cbn [fst snd mret Action_ret].
    by rewrite run_then_return, emit_nil.
Qed.

Lemma GCSPathParams_run url (w : World Net) :
  GCSPathParams url w = (url, emit [(INFO, "🔧 GCSPathParams received: " +:+ url)] w).
Proof. reflexivity. Qed.

Lemma cog_run request (w : World Net) :
  cog request w =
  match query_params request !! "url" with
  | Some url =>
      tiler url request (emit [(INFO, "🔧 GCSPathParams received: " +:+ url)] w)
  | None => (unprocessable, w)
  end.
Proof. unfold cog. by destruct (query_params request !! "url"). Qed.

(** With a next handler that does not depend on what has been logged, the
    middleware's response is that handler's response on the same world; the
    world afterwards is the one the handler leaves, its log being the old
    log, then the middleware's records, then the handler's own. *)
Lemma middleware_same_response request call_next (w : World Net) :
  log_independent call_next ->
  fst (log_and_handle_gcs_paths request call_next w) = fst (call_next request w)
  /\ exists recs added,
       logged (snd (call_next request w)) = (logged w ++ added)%list
       /\ snd (log_and_handle_gcs_paths request call_next w)
          = set_logged (logged w ++ recs ++ added) (snd (call_next request w)).
Proof.
  intros Hind.
  destruct (middleware_forwards request call_next w) as [recs ->].
  destruct (Hind request w) as [added Hadded].
  change (emit recs w) with (set_logged (logged w ++ recs) w).
  rewrite Hadded. split; [ reflexivity | ].
  exists recs, added. split.
  - specialize (Hadded (logged w)).
    replace (set_logged (logged w) w) with w in Hadded by (by destruct w).
    by rewrite Hadded at 1.
  - cbn [snd]. by rewrite <- app_assoc.
Qed.

(** The route behind GCSPathParams is such a handler whenever TiTiler's
    handlers are. *)
Lemma cog_log_independent :
  (forall url, log_independent (tiler url)) -> log_independent cog.
Proof.
  intros Hind request w.
  destruct (query_params request !! "url") as [url|] eqn:Hurl.
  - destruct (Hind url request
                (emit [(INFO, "🔧 GCSPathParams received: " +:+ url)] w))
      as [added Hadded].
    exists ([(INFO, "🔧 GCSPathParams received: " +:+ url)] ++ added)%list.
    intros l. rewrite !cog_run, Hurl.
    change (emit ?r (set_logged l w)) with (set_logged (l ++ r) (emit r w)).
    rewrite Hadded. by rewrite <- app_assoc.
  - exists []. intros l. rewrite !cog_run, Hurl. by rewrite app_nil_r.
Qed.

Lemma cog_refines_passthrough request (w : World Net) :
  exists recs, cog request w = titiler_passthrough request (emit recs w).
Proof.
  rewrite cog_run. unfold titiler_passthrough.
  destruct (query_params request !! "url") as [url|].
  - by eexists.
  - exists []. by rewrite emit_nil.
Qed.

(** C1: on every request the logging middleware hands the request to the
    next handler and returns what that handler returns, having at most
    appended log records; a TilerFactory route as served is that middleware
    around CORS around [cog]; and [cog] is TiTiler's handler invoked with
    the [url] query parameter as received, again up to appended log
    records.  The wrapper does nothing else. *)
Theorem wrapper_is_transparent (request : Request) (w : World Net) :
  (forall call_next, exists recs,
      log_and_handle_gcs_paths request call_next w
      = call_next request (emit recs w))
  /\ (exists recs,
        serve EpCog request w = cors CORS_ORIGINS cog request (emit recs w))
  /\ (exists recs,
        cog request w = titiler_passthrough request (emit recs w))
  /\ cog request w =
     match query_params request !! "url" with
     | Some url =>
         tiler url request
           (emit [(INFO, "🔧 GCSPathParams received: " +:+ url)] w)
     | None => (unprocessable, w)
     end.
Proof.
  split; [ | split; [ | split ] ].
  - intros call_next. apply middleware_forwards.
  - unfold serve.
    destruct (middleware_forwards request (cors CORS_ORIGINS (endpoint EpCog)) w)
      as [recs Hrecs].
    exists recs. exact Hrecs.
  - apply cog_refines_passthrough.
  - apply cog_run.
Qed.

(** C8: [GCSPathParams] returns its argument for every string, with one
    log record as its only effect, and a route called with query
    parameter [url] hands exactly that string to TiTiler's handler. *)
Theorem GCSPathParams_identity (url : string) (w : World Net) :
  GCSPathParams url w
  = (url, emit [(INFO, "🔧 GCSPathParams received: " +:+ url)] w)
  /\ forall meth pth params,
       let request := {| method := meth; path := pth;
                         query_params := <["url" := url]> params |} in
       cog request w
       = tiler url request
           (emit [(INFO, "🔧 GCSPathParams received: " +:+ url)] w).
Proof.
  split; [ apply GCSPathParams_run | ].
  intros meth pth params request. rewrite cog_run. subst request; simpl.
  by rewrite lookup_insert_eq.
Qed.

(** *** Timeouts *)

(** The module body writes the overall HTTP timeout (300) and the
    connect timeout (60) into the environment, whatever it held before;
    and, as long as the imported handlers do not write to the
    environment, both are there at startup and when any request is
    served. *)
Theorem startup_configures_timeouts :
  (forall w0 : World Net, timeouts_configured (snd (module_init w0)))
  /\ (tiler_keeps_environ -> cors_keeps_environ ->
      forall w, reachable w -> timeouts_configured w).
Proof.
  split.
  - intros w0. unfold timeouts_configured. rewrite module_init_environ.
    split; [ apply configure_gdal_timeout | apply configure_gdal_connecttimeout ].
  - intros Htiler Hcors w Hreach.
    destruct (reachable_environ Htiler Hcors w Hreach) as [w0 Henv].
    unfold timeouts_configured. rewrite Henv.
    split; [ apply configure_gdal_timeout | apply configure_gdal_connecttimeout ].
Qed.

(** *** Health check *)

Lemma health_check_run (w : World Net) :
  health_check w =
  (PDict
     [ ("status", PStr "healthy");
       ("message", PStr "CAT Tiles API is operational");
       ("gcs_enabled",
        PBool (bool_decide (environ w !! "GS_NO_SIGN_REQUEST" = Some "YES")));
       ("gdal_config", PDict
          [ ("GDAL_DISABLE_READDIR_ON_OPEN",
             of_opt_str (environ w !! "GDAL_DISABLE_READDIR_ON_OPEN"));
            ("CPL_VSIL_CURL_ALLOWED_EXTENSIONS",
             of_opt_str (environ w !! "CPL_VSIL_CURL_ALLOWED_EXTENSIONS"));
            ("GS_NO_SIGN_REQUEST",
             of_opt_str (environ w !! "GS_NO_SIGN_REQUEST")) ]) ], w).
Proof. reflexivity. Qed.

(** C9: [health_check] always answers status "healthy"; its [gcs_enabled]
    field is a boolean that is true exactly when [GS_NO_SIGN_REQUEST] is
    'YES' in the environment; the module body sets that variable to 'YES'
    whatever the environment held; so the field is true at startup and,
    as long as the imported handlers do not write to the environment,
    whenever a request is served. *)
Theorem health_check_gcs_enabled :
  (forall w : World Net,
      field "status" (fst (health_check w)) = Some (PStr "healthy")
      /\ exists b,
           field "gcs_enabled" (fst (health_check w)) = Some (PBool b)
           /\ (b = true <-> environ w !! "GS_NO_SIGN_REQUEST" = Some "YES"))
  /\ (forall w0 : World Net,
        environ (snd (module_init w0)) !! "GS_NO_SIGN_REQUEST" = Some "YES")
  /\ (tiler_keeps_environ -> cors_keeps_environ ->
      forall w, reachable w ->
      field "gcs_enabled" (fst (health_check w)) = Some (PBool true)).
Proof.
  split; [ | split ].
  - intros w. rewrite health_check_run. split; [ reflexivity | ].
    eexists. split; [ reflexivity | ]. apply bool_decide_eq_true.
  - intros w0. rewrite module_init_environ. apply configure_gdal_no_sign.
  - intros Htiler Hcors w Hreach.
    destruct (reachable_environ Htiler Hcors w Hreach) as [w0 Henv].
    rewrite health_check_run; cbn [fst field dict_get String.eqb Ascii.eqb Bool.eqb].
    rewrite Henv, configure_gdal_no_sign. reflexivity.
Qed.

(** *** GCS probe *)

(** Calls into rasterio touch nothing of the world but what lies outside
    the process. *)
Lemma call_run {A} (op : Net -> A * Net) (w : World Net) :
  call op w
  = (fst (op (net w)),
     {| environ := environ w; logged := logged w; opened := opened w;
        net := snd (op (net w)) |}).
Proof. unfold call. by destruct (op (net w)). Qed.

Lemma and_then_run {A B} (m : M (PyException + A)) (k : A -> M (PyException + B))
    (w : World Net) :
  and_then m k w
  = match fst (m w) with
    | inl e => (inl e, snd (m w))
    | inr a => k a (snd (m w))
    end.
Proof. unfold and_then. rewrite bind_run. by destruct (fst (m w)). Qed.

Lemma answer_frame test_url s (w : World Net) :
  environ (snd (answer test_url s w)) = environ w
  /\ logged (snd (answer test_url s w)) = logged w
  /\ opened (snd (answer test_url s w)) = opened w.
Proof.
  unfold answer.
  repeat (rewrite and_then_run, call_run; cbn [fst snd];
          match goal with
          | |- context [match fst ?r with _ => _ end] => destruct (fst r)
          end; [ done | ]).
  done.
Qed.


Lemma with_open_run {A} url (body : src rasterio -> M (PyException + A))
    (w : World Net) :
  with_open url body w
  = match fst (open_dataset url w) with
    | inl e => (inl e, snd (open_dataset url w))
    | inr s =>
        let w1 := snd (open_dataset url w) in
        let w2 := snd (body s w1) in
        (match fst (call (src_exit rasterio s) w2) with
         | inl e => inl e
         | inr _ => fst (body s w1)
         end,
         snd (call (src_exit rasterio s) w2))
    end.
Proof.
  unfold with_open. rewrite bind_run.
  destruct (fst (open_dataset url w)) as [e | s]; [ done | ].
  by rewrite !bind_run.
Qed.


Lemma test_gcs_access_run bucket file_path (w : World Net) :
  let test_url := "gs://" +:+ bucket +:+ "/" +:+ file_path in
  let r := with_open test_url (answer test_url) w in
  test_gcs_access bucket file_path w
  = match fst r with
    | inr result => (Returned result, snd r)
    | inl e =>
        if is_Exception e then
          (RaisedHTTP {| status_code := 500;
                         detail := "Failed to access GCS file: " +:+ str_exc e |},
           emit [(ERROR, "❌ Failed to access GCS file: " +:+ str_exc e)] (snd r))
        else (Propagated e, snd r)
    end.
Proof.
  intros test_url r. unfold test_gcs_access. fold test_url.
  rewrite bind_run. fold r.
  destruct (fst r) as [e | result]; [ | done ].
  by destruct (is_Exception e).
Qed.

Lemma with_open_opened {A} url (body : src rasterio -> M (PyException + A))
    (w : World Net) :
  (forall s w', opened (snd (body s w')) = opened w') ->
  opened (snd (with_open url body w)) = (opened w ++ [url])%list.
Proof.
  intros Hbody. rewrite with_open_run.
  assert (Hopen : opened (snd (open_dataset url w)) = (opened w ++ [url])%list).
  { unfold open_dataset. by destruct (rasterio_open _ _ _ _). }
  destruct (fst (open_dataset url w)) as [e | s]; cbn [snd]; [ done | ].
  by rewrite call_run, Hbody.
Qed.


(** *** Prefix tests *)

Lemma startswith_app (p t : string) : startswith (p +:+ t) p = true.
Proof using Type.
  induction p as [ | c p IH ]; simpl; [ by destruct t | ].
  by rewrite Ascii.eqb_refl.
Qed.

Lemma startswith_inv (s p : string) :
  startswith s p = true -> exists t, s = p +:+ t.
Proof using Type.
  revert s. induction p as [ | c p IH ]; intros s Hs.
  - by exists s.
  - destruct s as [ | d s ]; simpl in Hs; [ done | ].
    destruct (Ascii.eqb c d) eqn:Hcd; [ | done ].
    apply Ascii.eqb_eq in Hcd as ->.
    destruct (IH _ Hs) as [t ->]. by exists t.
Qed.

(** *** When the middleware logs *)

Lemma middleware_silent request call_next (w : World Net) :
  startswith_any (path request) LOGGED_PREFIXES
  && truthy_opt (query_params request !! "url") = false ->
  log_and_handle_gcs_paths request call_next w = call_next request w.
Proof using Type.
  intros Hoff. unfold log_and_handle_gcs_paths.
  destruct (startswith_any (path request) LOGGED_PREFIXES);
    [ destruct (query_params request !! "url") as [url_param|];
      [ destruct (truthy url_param) eqn:Hurl;
        [ simpl in Hoff; congruence | ] | ] | ];
    rewrite bind_run; cbn [fst snd mret Action_ret];
    apply run_then_return.
Qed.

(** The middleware writes no record for the module's own routes, for the
    interactive docs, for static images, nor for the routes TilerFactory
    registers under [/WebMercatorQuad/]: the next handler gets the world
    as it was. *)
Theorem middleware_silent_off_prefix request call_next (w : World Net) :
  path request ∈ ["/"; "/health"; "/test-gcs"; "/docs"; "/redoc"]
  \/ startswith (path request) "/WebMercatorQuad/" = true
  \/ startswith (path request) "/images/" = true ->
  log_and_handle_gcs_paths request call_next w = call_next request w.
Proof using Type.
  intros Hpath. apply middleware_silent. apply andb_false_iff. left.
  destruct Hpath as [Hown | [Hquad | Himg]].
  - rewrite !elem_of_cons, elem_of_nil in Hown.
    destruct Hown as [-> | [-> | [-> | [-> | [-> | []]]]]]; reflexivity.
  - apply startswith_inv in Hquad as [t ->]. reflexivity.
  - apply startswith_inv in Himg as [t ->]. reflexivity.
Qed.

(** A request without [url] is not logged and never reaches TiTiler; a
    request with an empty [url] is not logged either, yet the path
    dependency accepts it and TiTiler is called with the empty string. *)
Theorem url_absent_or_empty request call_next (w : World Net) :
  (query_params request !! "url" = None ->
   log_and_handle_gcs_paths request call_next w = call_next request w
   /\ cog request w = (unprocessable, w))
  /\ (query_params request !! "url" = Some "" ->
      log_and_handle_gcs_paths request call_next w = call_next request w
      /\ cog request w
         = tiler "" request (emit [(INFO, "🔧 GCSPathParams received: ")] w)).
Proof using Type.
  split; intros Hurl; (split; [ | by rewrite cog_run, Hurl ]);
    apply middleware_silent; rewrite Hurl; apply andb_false_r.
Qed.

Ltac in_list := rewrite !elem_of_cons; auto 10.

Lemma flags_exclusive (d : string) :
  let is_url := startswith_any d ["http://"; "https://"] in
  let is_gcs := startswith d "gs://" in
  let is_vsigs := startswith d "/vsigs/" in
  (is_url, is_gcs, is_vsigs)
  ∈ [ (false, false, false); (true, false, false);
      (false, true, false); (false, false, true) ].
Proof using Type.
  intros is_url is_gcs is_vsigs.
  destruct is_gcs eqn:Hgcs; subst is_gcs.
  { apply startswith_inv in Hgcs as [t ->]. in_list. }
  destruct is_vsigs eqn:Hvsigs; subst is_vsigs.
  { apply startswith_inv in Hvsigs as [t ->]. in_list. }
  destruct is_url; in_list.
Qed.

(** When the middleware logs, it appends exactly five INFO records: the
    path, the parameter as received, the parameter unquoted, a flags line
    on which at most one of url, gcs and vsigs is True, and the closing
    line; then it calls the next handler with the same request. *)
Theorem middleware_records request call_next (w : World Net) url_param :
  startswith_any (path request) LOGGED_PREFIXES = true ->
  query_params request !! "url" = Some url_param ->
  url_param <> "" ->
  exists flags,
    flags ∈ [ "url=False, gcs=False, vsigs=False";
              "url=True, gcs=False, vsigs=False";
              "url=False, gcs=True, vsigs=False";
              "url=False, gcs=False, vsigs=True" ]
    /\ log_and_handle_gcs_paths request call_next w
       = call_next request
           (emit [ (INFO, "🔍 TiTiler request: " +:+ path request);
                   (INFO, "   Original URL param: " +:+ url_param);
                   (INFO, "   Decoded URL: " +:+ unquote url_param);
                   (INFO, "   Flags: " +:+ flags);
                   (INFO, "   ✅ Path passed through to TiTiler") ] w).
Proof using Type.
  intros Hpath Hurl Hne.
  destruct url_param as [ | c rest ]; [ done | ].
  pose proof (flags_exclusive (unquote (String c rest))) as Hflags.
  unfold log_and_handle_gcs_paths. rewrite Hpath, Hurl.
  cbn [truthy]. cbv zeta in Hflags |- *.
  remember (startswith_any (unquote (String c rest)) ["http://"; "https://"])
    as is_url eqn:Eurl.
  remember (startswith (unquote (String c rest)) "gs://") as is_gcs eqn:Egcs.
  remember (startswith (unquote (String c rest)) "/vsigs/") as is_vsigs eqn:Evsigs.
  clear Eurl Egcs Evsigs.
  rewrite bind_run. repeat rewrite log_then.
  unfold log; cbn [fst snd]. rewrite run_then_return.
  repeat rewrite emit_emit. cbn [app].
  rewrite !elem_of_cons, elem_of_nil in Hflags.
  destruct Hflags as [H | [H | [H | [H | []]]]];
    injection H as -> -> ->; eexists; (split; [ | reflexivity ]); in_list.
Qed.

(** *** What import and startup leave behind *)

Lemma getenv_then {A} k (f : option string -> M A) (w : World Net) :
  (getenv k ≫= f) w = f (environ w !! k) w.
Proof using Type. reflexivity. Qed.

Lemma configure_gdal_readdir env :
  configure_gdal env !! "GDAL_DISABLE_READDIR_ON_OPEN" = Some "EMPTY_DIR".
Proof using Type. unfold configure_gdal. by simplify_map_eq. Qed.

Lemma configure_gdal_extensions env :
  configure_gdal env !! "CPL_VSIL_CURL_ALLOWED_EXTENSIONS" = Some ".tif,.tiff".
Proof using Type. unfold configure_gdal. by simplify_map_eq. Qed.

Lemma configure_gdal_credentials env :
  configure_gdal env !! "GOOGLE_APPLICATION_CREDENTIALS"
  = env !! "GOOGLE_APPLICATION_CREDENTIALS".
Proof using Type. unfold configure_gdal. by simplify_map_eq. Qed.

Lemma configure_gdal_root_path env :
  root_path (configure_gdal env) = root_path env.
Proof using Type. unfold root_path, configure_gdal. by simplify_map_eq. Qed.

(** Import writes exactly these five settings: they win over whatever the
    environment held and every other variable is kept.  Hence importing
    twice is the same as importing once. *)
Theorem configure_gdal_overlay (env : gmap string string) :
  configure_gdal env
  = list_to_map
      [ ("GDAL_DISABLE_READDIR_ON_OPEN", "EMPTY_DIR");
        ("CPL_VSIL_CURL_ALLOWED_EXTENSIONS", ".tif,.tiff");
        ("GDAL_HTTP_TIMEOUT", "300");
        ("GDAL_HTTP_CONNECTTIMEOUT", "60");
        ("GS_NO_SIGN_REQUEST", "YES") ] ∪ env
  /\ configure_gdal (configure_gdal env) = configure_gdal env.
Proof using Type.
  assert (Hoverlay : forall e : gmap string string,
             configure_gdal e
             = list_to_map
                 [ ("GDAL_DISABLE_READDIR_ON_OPEN", "EMPTY_DIR");
                   ("CPL_VSIL_CURL_ALLOWED_EXTENSIONS", ".tif,.tiff");
                   ("GDAL_HTTP_TIMEOUT", "300");
                   ("GDAL_HTTP_CONNECTTIMEOUT", "60");
                   ("GS_NO_SIGN_REQUEST", "YES") ] ∪ e).
  { intros e. unfold configure_gdal. cbn [list_to_map foldr fst snd uncurry].
    repeat rewrite <- insert_union_l. rewrite (left_id_L ∅ (∪)).
    apply map_eq. intros k.
    repeat (rewrite lookup_insert; case_decide; [ subst k | ]);
      by simplify_map_eq. }
  split; [ apply Hoverlay | ].
  rewrite (Hoverlay (configure_gdal env)), (Hoverlay env).
  by rewrite (assoc_L (∪)), (idemp_L (∪)).
Qed.

(** The module global [root_path] is [FASTAPI_ROOT_PATH] as it was before
    import, "/cat-tiles" when the variable is unset; a variable set to the
    empty string gives the empty root path, not the default. *)
Theorem module_init_root_path (w0 : World Net) :
  fst (module_init w0) = root_path (environ w0)
  /\ (environ w0 !! "FASTAPI_ROOT_PATH" = None ->
      fst (module_init w0) = "/cat-tiles")
  /\ (forall v, environ w0 !! "FASTAPI_ROOT_PATH" = Some v ->
      fst (module_init w0) = v).
Proof using Type.
  assert (Hrp : fst (module_init w0) = root_path (environ w0)).
  { unfold module_init. rewrite bind_run. cbn [fst snd environ].
    rewrite getenv_then, configure_gdal_root_path.
    repeat (rewrite bind_run; cbn [fst snd]). reflexivity. }
  split; [ exact Hrp | split ].
  - intros Hunset. rewrite Hrp. unfold root_path. by rewrite Hunset.
  - intros v Hset. rewrite Hrp. unfold root_path. by rewrite Hset.
Qed.

(** At import the module logs two records about credentials and, when the
    images directory exists, one about the mount.  Which pair is logged
    depends on [GOOGLE_APPLICATION_CREDENTIALS] as it was before import
    (unset or empty counts as absent); the anonymous-access record always
    reads [GS_NO_SIGN_REQUEST=YES], the value having just been written. *)
Theorem module_init_logged (w0 : World Net) :
  let creds := environ w0 !! "GOOGLE_APPLICATION_CREDENTIALS" in
  logged (snd (module_init w0)) =
  (logged w0
   ++ (if truthy_opt creds then
         [ (INFO, "✅ GCS credentials found: " +:+ str_opt creds);
           (INFO, "📌 Will use authenticated access for GCS (credentials take precedence)") ]
       else
         [ (INFO, "ℹ️ No GOOGLE_APPLICATION_CREDENTIALS set");
           (INFO, "📌 Using anonymous/public access for GCS buckets (GS_NO_SIGN_REQUEST=YES)") ])
   ++ (if images_dir_exists then
         [ (INFO, "📁 Mounted images directory: " +:+ images_dir) ]
       else []))%list.
Proof using Type.
  intros creds. unfold module_init.
  rewrite bind_run. cbn [fst snd].
  rewrite getenv_then. cbn [environ].
  rewrite configure_gdal_credentials. fold creds.
  destruct (truthy_opt creds); destruct images_dir_exists;
    repeat first [ rewrite log_then | rewrite getenv_then | rewrite bind_run ];
    unfold log, mret, Action_ret; cbn [fst snd emit environ logged];
    rewrite ?configure_gdal_no_sign; cbn [str_opt];
    rewrite <- ?app_assoc; reflexivity.
Qed.

(** Startup appends the banner to what import logged: eight records, with
    the root path read before import and public access shown as YES. *)
Theorem startup_logged (w0 : World Net) :
  logged (snd (startup w0)) =
  (logged (snd (module_init w0))
   ++ [ (INFO, str_repeat "=" 80);
        (INFO, "🚀 CAT Tiles API Starting Up");
        (INFO, str_repeat "=" 80);
        (INFO, "📍 Root Path: " +:+ root_path (environ w0));
        (INFO, "🌐 CORS Origins: " +:+ repr_list CORS_ORIGINS);
        (INFO, "☁️ GCS Public Access: YES");
        (INFO, "📝 Docs available at: " +:+ root_path (environ w0) +:+ "/docs");
        (INFO, str_repeat "=" 80) ])%list.
Proof using Type.
  unfold startup. rewrite bind_run.
  destruct (module_init_root_path w0) as [-> _].
  pose proof (module_init_environ w0) as Henv.
  set (w := snd (module_init w0)) in *.
  unfold lifespan_startup.
  repeat first [ rewrite log_then | rewrite getenv_then ].
  unfold log; cbn [fst snd emit environ logged].
  rewrite Henv, configure_gdal_no_sign. cbn [str_opt].
  rewrite <- ?app_assoc. reflexivity.
Qed.

(** Serving a request on any of the routes leaves [os.environ] as it was,
    as long as the imported handlers do not write to it. *)
Theorem serving_keeps_environ :
  tiler_keeps_environ -> cors_keeps_environ ->
  forall e request (w : World Net),
    environ (snd (serve e request w)) = environ w.
Proof using Type.
  intros Htiler Hcors e request w.
  by apply keeps_environ_serve.
Qed.

(** *** The health report *)

(** [health_check] changes nothing, and its two views of
    [GS_NO_SIGN_REQUEST] agree: [gcs_enabled] is true exactly when the copy
    under [gdal_config] is the string 'YES'; with the variable unset the
    report still says "healthy", with [gcs_enabled] false and a null copy. *)
Theorem health_check_consistent (w : World Net) :
  snd (health_check w) = w
  /\ field "status" (fst (health_check w)) = Some (PStr "healthy")
  /\ exists cfg,
       field "gdal_config" (fst (health_check w)) = Some cfg
       /\ field "GS_NO_SIGN_REQUEST" cfg
          = Some (of_opt_str (environ w !! "GS_NO_SIGN_REQUEST"))
       /\ (field "gcs_enabled" (fst (health_check w)) = Some (PBool true)
           <-> field "GS_NO_SIGN_REQUEST" cfg = Some (PStr "YES"))
       /\ (environ w !! "GS_NO_SIGN_REQUEST" = None ->
           field "gcs_enabled" (fst (health_check w)) = Some (PBool false)
           /\ field "GS_NO_SIGN_REQUEST" cfg = Some PNone).
Proof using Type.
  rewrite health_check_run. cbn [fst snd].
  split; [ reflexivity | split; [ reflexivity | ] ].
  eexists. split; [ reflexivity | ].
  cbn [field dict_get String.eqb Ascii.eqb Bool.eqb].
  split; [ reflexivity | split ].
  - destruct (environ w !! "GS_NO_SIGN_REQUEST") as [v|]; cbn [of_opt_str].
    + split.
      * intros [= Hyes]. apply bool_decide_eq_true in Hyes. by injection Hyes as ->.
      * intros [= ->]. by rewrite bool_decide_eq_true_2.
    + split; [ intros [= Hyes]; by apply bool_decide_eq_true in Hyes | done ].
  - intros ->. split; [ by rewrite bool_decide_eq_false_2 | reflexivity ].
Qed.

(** Once the module is imported the health report is one fixed value,
    whatever the environment held before and whichever requests were
    served, as long as the imported handlers do not write to the
    environment. *)
Theorem health_check_constant :
  tiler_keeps_environ -> cors_keeps_environ ->
  forall w, reachable w ->
  fst (health_check w) =
  PDict
    [ ("status", PStr "healthy");
      ("message", PStr "CAT Tiles API is operational");
      ("gcs_enabled", PBool true);
      ("gdal_config", PDict
         [ ("GDAL_DISABLE_READDIR_ON_OPEN", PStr "EMPTY_DIR");
           ("CPL_VSIL_CURL_ALLOWED_EXTENSIONS", PStr ".tif,.tiff");
           ("GS_NO_SIGN_REQUEST", PStr "YES") ]) ].
Proof using Type.
  intros Htiler Hcors w Hreach.
  destruct (reachable_environ Htiler Hcors w Hreach) as [w0 Henv].
  rewrite health_check_run. cbn [fst]. rewrite Henv.
  rewrite configure_gdal_no_sign, configure_gdal_readdir,
    configure_gdal_extensions.
  by rewrite bool_decide_eq_true_2.
Qed.

(** *** The probe *)

Lemma test_gcs_access_opened bucket file_path (w : World Net) :
  opened (snd (test_gcs_access bucket file_path w))
  = (opened w ++ ["gs://" +:+ bucket +:+ "/" +:+ file_path])%list.
Proof using Type.
  pose proof (test_gcs_access_run bucket file_path w) as Hrun.
  cbv zeta in Hrun. rewrite Hrun.
  rewrite <- (with_open_opened _ (answer ("gs://" +:+ bucket +:+ "/" +:+ file_path)) w
                (fun s w' => proj2 (proj2 (answer_frame _ s w')))).
  destruct (fst (with_open _ _ w)) as [e | result]; [ | done ].
  by destruct (is_Exception e).
Qed.

(** Whenever the probe raises an [HTTPException] it has logged exactly one
    ERROR record, the cross mark followed by the exception's detail; in
    every other case, also when it lets an exception through, it logs
    nothing.  When opening fails nothing else is called; when opening
    succeeds the dataset is closed exactly once, after the attribute reads
    and whether or not they raised. *)
Theorem test_gcs_access_effects (bucket file_path : string) (w : World Net) :
  let test_url := "gs://" +:+ bucket +:+ "/" +:+ file_path in
  let out := test_gcs_access bucket file_path w in
  match fst out with
  | RaisedHTTP h =>
      logged (snd out) = (logged w ++ [(ERROR, "❌ " +:+ detail h)])%list
  | _ => logged (snd out) = logged w
  end
  /\ match fst (open_dataset test_url w) with
     | inl _ => net (snd out) = net (snd (open_dataset test_url w))
     | inr s =>
         net (snd out)
         = snd (src_exit rasterio s
                  (net (snd (answer test_url s (snd (open_dataset test_url w))))))
     end.
Proof using Type.
  intros test_url out.
  pose proof (test_gcs_access_run bucket file_path w) as Hrun.
  cbv zeta in Hrun. fold test_url in Hrun. fold out in Hrun.
  assert (Hlog : logged (snd (with_open test_url (answer test_url) w)) = logged w).
  { rewrite with_open_run.
    assert (Hopen : logged (snd (open_dataset test_url w)) = logged w).
    { unfold open_dataset. by destruct (rasterio_open _ _ _ _). }
    destruct (fst (open_dataset test_url w)) as [e | s]; cbn [snd]; [ done | ].
    rewrite call_run; cbn [logged].
    by rewrite (proj1 (proj2 (answer_frame _ _ _))). }
  assert (Hnet : net (snd out) = net (snd (with_open test_url (answer test_url) w))).
  { rewrite Hrun.
    destruct (fst (with_open _ _ w)) as [e | result]; [ | done ].
    by destruct (is_Exception e). }
  split.
  - rewrite Hrun.
    destruct (fst (with_open _ _ w)) as [e | result]; cbn [fst snd]; [ | done ].
    destruct (is_Exception e); cbn [fst snd emit logged detail]; by rewrite ?Hlog.
  - rewrite Hnet, with_open_run.
    destruct (fst (open_dataset test_url w)) as [e | s]; cbn [snd]; [ done | ].
    by rewrite call_run.
Qed.

(** Whatever the parameters, the one URL the probe opens has scheme
    [gs://]: it is never an http(s) URL nor a [/vsigs/] path. *)
Theorem test_gcs_access_opens_gcs_only (bucket file_path : string) (w : World Net) :
  exists url,
    opened (snd (test_gcs_access bucket file_path w)) = (opened w ++ [url])%list
    /\ startswith url "gs://" = true
    /\ startswith_any url ["http://"; "https://"] = false
    /\ startswith url "/vsigs/" = false.
Proof using Type.
  exists ("gs://" +:+ bucket +:+ "/" +:+ file_path). split.
  - apply test_gcs_access_opened.
  - split; [ apply startswith_app | split; reflexivity ].
Qed.

(** *** Transparency for handlers that do not read the log *)


(** The [/test-gcs] route opens one URL built from the [bucket] and
    [file_path] query parameters, each falling back to its own default;
    without parameters it opens the NOAA orthomosaic named in the source. *)
Theorem probe_endpoint_defaults (request : Request) (w : World Net) :
  opened (snd (endpoint EpTestGcs request w))
  = (opened w
     ++ [ "gs://" +:+ default DEFAULT_BUCKET (query_params request !! "bucket")
          +:+ "/"
          +:+ default DEFAULT_FILE_PATH (query_params request !! "file_path") ])%list
  /\ (query_params request !! "bucket" = None ->
      query_params request !! "file_path" = None ->
      opened (snd (endpoint EpTestGcs request w))
      = (opened w
         ++ [ "gs://nmfs_odp_pifsc/PIFSC/ESD/ARP/StRS_Sites_Products/orthomosaic_cog/2025_GUA-2838_mos_cog.tif" ])%list).
Proof using Type.
  assert (Hrun : opened (snd (endpoint EpTestGcs request w))
                 = (opened w
                    ++ [ "gs://" +:+ default DEFAULT_BUCKET (query_params request !! "bucket")
                         +:+ "/"
                         +:+ default DEFAULT_FILE_PATH
                               (query_params request !! "file_path") ])%list).
  { cbn [endpoint]. rewrite bind_run. cbn [mret Action_ret snd].
    apply test_gcs_access_opened. }
  split; [ exact Hrun | ].
  intros Hbucket Hfile. rewrite Hrun, Hbucket, Hfile. reflexivity.
Qed.

End Api.

(** ** The handlers run on the sample collaborators *)

Abbreviation demo_serve :=
  (serve Demo.unquote Demo.rasterio Demo.tiler Demo.cors
         Demo.unprocessable Demo.json_response Demo.exception_response
         Demo.uncaught).

Abbreviation demo_started := (snd (startup "/srv/app/images" true Demo.w0)).

Example startup_logs_anonymous_access :
  logged (snd (module_init "/srv/app/images" true Demo.w0)) =
  [ (INFO, "ℹ️ No GOOGLE_APPLICATION_CREDENTIALS set");
    (INFO, "📌 Using anonymous/public access for GCS buckets (GS_NO_SIGN_REQUEST=YES)");
    (INFO, "📁 Mounted images directory: /srv/app/images") ].
Proof. vm_compute. reflexivity. Qed.

Example info_request_is_logged_and_forwarded :
  demo_serve EpCog Demo.info_request Demo.w0 =
  ("gs://bucket/ok.tif",
   {| environ := ∅;
      logged :=
        [ (INFO, "🔍 TiTiler request: /info");
          (INFO, "   Original URL param: gs://bucket/ok.tif");
          (INFO, "   Decoded URL: gs://bucket/ok.tif");
          (INFO, "   Flags: url=False, gcs=True, vsigs=False");
          (INFO, "   ✅ Path passed through to TiTiler");
          (INFO, "🔧 GCSPathParams received: gs://bucket/ok.tif") ];
      opened := [];
      net := 1%nat |}).
Proof. vm_compute. reflexivity. Qed.

(** The module holds no cache: each of two identical requests reaches the
    tiler, which here reads the store each time. *)
Example second_request_reaches_tiler :
  net (snd (demo_serve EpCog Demo.info_request
              (snd (demo_serve EpCog Demo.info_request Demo.w0)))) = 2%nat.
Proof. vm_compute. reflexivity. Qed.

Example probe_default_file_fails_on_sample_store :
  fst (test_gcs_access Demo.rasterio DEFAULT_BUCKET DEFAULT_FILE_PATH Demo.w0)
  = RaisedHTTP {| status_code := 500;
                  detail := "Failed to access GCS file: No such file" |}.
Proof. vm_compute. reflexivity. Qed.

Example probe_of_broken_file_closes_and_fails :
  test_gcs_access Demo.rasterio "bucket" "broken.tif" Demo.w0
  = (RaisedHTTP {| status_code := 500;
                   detail := "Failed to access GCS file: CRS is invalid" |},
     {| environ := ∅;
        logged := [(ERROR, "❌ Failed to access GCS file: CRS is invalid")];
        opened := ["gs://bucket/broken.tif"];
        net := 1%nat |}).
Proof. vm_compute. reflexivity. Qed.

Example probe_lets_interrupt_through :
  test_gcs_access Demo.rasterio "bucket" "interrupt.tif" Demo.w0
  = (Propagated {| str_exc := "KeyboardInterrupt"; is_Exception := false |},
     {| environ := ∅; logged := []; opened := ["gs://bucket/interrupt.tif"];
        net := 1%nat |}).
Proof. vm_compute. reflexivity. Qed.

Lemma startup_configures_timeouts_witness :
  timeouts_configured (snd (demo_serve EpCog Demo.info_request demo_started)).
Proof.
  apply (proj2 (startup_configures_timeouts
                  Demo.unquote Demo.rasterio Demo.tiler
                  Demo.cors Demo.unprocessable "/srv/app/images" true
                  Demo.json_response Demo.exception_response Demo.uncaught)).
  - intros src_path request w. reflexivity.
  - intros origins inner Hinner request. apply Hinner.
  - apply reach_serve, reach_startup.
Defined.

Lemma health_check_gcs_enabled_witness :
  field "gcs_enabled"
    (fst (health_check (snd (demo_serve EpHealth Demo.info_request demo_started))))
  = Some (PBool true).
Proof.
  apply (proj2 (proj2 (health_check_gcs_enabled
                  Demo.unquote Demo.rasterio Demo.tiler
                  Demo.cors Demo.unprocessable "/srv/app/images" true
                  Demo.json_response Demo.exception_response Demo.uncaught))).
  - intros src_path request w. reflexivity.
  - intros origins inner Hinner request. apply Hinner.
  - apply reach_serve, reach_startup.
Defined.



(** ** Further runs on the sample collaborators *)

Abbreviation quad_request :=
  {| method := "GET"; path := "/WebMercatorQuad/tiles/3/1/2";
     query_params := {[ "url" := "gs://bucket/ok.tif" ]} |}.

Abbreviation empty_url_request :=
  {| method := "GET"; path := "/tiles/3/1/2";
     query_params := {[ "url" := "" ]} |}.

Abbreviation rooted_world :=
  {| environ := {[ "FASTAPI_ROOT_PATH" := "" ]}; logged := [];
     opened := []; net := O |}.

Example import_with_credentials_logs_them :
  logged (snd (module_init "/srv/app/images" false
                 {| environ := {[ "GOOGLE_APPLICATION_CREDENTIALS" := "/run/key.json" ]};
                    logged := []; opened := []; net := O |})) =
  [ (INFO, "✅ GCS credentials found: /run/key.json");
    (INFO, "📌 Will use authenticated access for GCS (credentials take precedence)") ].
Proof. vm_compute. reflexivity. Qed.

Example probe_of_sample_file_succeeds :
  test_gcs_access Demo.rasterio "bucket" "ok.tif" Demo.w0 =
  (Returned
     (PDict [ ("status", PStr "success"); ("url", PStr "gs://bucket/ok.tif");
              ("driver", PStr "GTiff"); ("width", PInt 512); ("height", PInt 256);
              ("crs", PStr "EPSG:4326");
              ("bounds", PTuple [ PFloat 0.5%float; PFloat 1.5%float;
                                  PFloat 2.5%float; PFloat 3.5%float ]) ]),
   {| environ := ∅; logged := []; opened := ["gs://bucket/ok.tif"]; net := 1%nat |}).
Proof. vm_compute. reflexivity. Qed.

Lemma middleware_silent_off_prefix_witness :
  log_and_handle_gcs_paths Demo.unquote quad_request
    (Demo.tiler "gs://bucket/ok.tif") Demo.w0
  = Demo.tiler "gs://bucket/ok.tif" quad_request Demo.w0.
Proof.
  apply middleware_silent_off_prefix. right; left. reflexivity.
Defined.

Lemma url_absent_or_empty_witness :
  log_and_handle_gcs_paths Demo.unquote empty_url_request
    (cog Demo.tiler Demo.unprocessable) Demo.w0
  = cog Demo.tiler Demo.unprocessable empty_url_request Demo.w0
  /\ cog Demo.tiler Demo.unprocessable empty_url_request Demo.w0
     = Demo.tiler "" empty_url_request
         (emit [(INFO, "🔧 GCSPathParams received: ")] Demo.w0).
Proof.
  apply (proj2 (url_absent_or_empty Demo.unquote Demo.tiler Demo.unprocessable
                  empty_url_request (cog Demo.tiler Demo.unprocessable) Demo.w0)).
  vm_compute. reflexivity.
Defined.

Lemma middleware_records_witness :
  exists flags,
    flags ∈ [ "url=False, gcs=False, vsigs=False";
              "url=True, gcs=False, vsigs=False";
              "url=False, gcs=True, vsigs=False";
              "url=False, gcs=False, vsigs=True" ]
    /\ log_and_handle_gcs_paths Demo.unquote Demo.info_request
         (Demo.tiler "gs://bucket/ok.tif") Demo.w0
       = Demo.tiler "gs://bucket/ok.tif" Demo.info_request
           (emit [ (INFO, "🔍 TiTiler request: " +:+ "/info");
                   (INFO, "   Original URL param: " +:+ "gs://bucket/ok.tif");
                   (INFO, "   Decoded URL: " +:+ Demo.unquote "gs://bucket/ok.tif");
                   (INFO, "   Flags: " +:+ flags);
                   (INFO, "   ✅ Path passed through to TiTiler") ] Demo.w0).
Proof.
  apply (middleware_records Demo.unquote Demo.info_request
           (Demo.tiler "gs://bucket/ok.tif") Demo.w0 "gs://bucket/ok.tif").
  - reflexivity.
  - vm_compute. reflexivity.
  - discriminate.
Defined.

Lemma module_init_root_path_witness :
  fst (module_init "/srv/app/images" true rooted_world) = "".
Proof.
  apply (proj2 (proj2 (module_init_root_path "/srv/app/images" true rooted_world))).
  vm_compute. reflexivity.
Defined.

Lemma serving_keeps_environ_witness :
  environ (snd (demo_serve EpTestGcs Demo.info_request demo_started))
  = environ demo_started.
Proof.
  apply serving_keeps_environ.
  - intros src_path request w. reflexivity.
  - intros origins inner Hinner request. apply Hinner.
Defined.

Lemma health_check_consistent_witness :
  field "gcs_enabled" (fst (health_check Demo.w0)) = Some (PBool false).
Proof.
  destruct (health_check_consistent Demo.w0) as (_ & _ & cfg & _ & _ & _ & Hunset).
  apply Hunset. vm_compute. reflexivity.
Defined.

Lemma health_check_constant_witness :
  fst (health_check (snd (demo_serve EpCog Demo.info_request demo_started))) =
  PDict
    [ ("status", PStr "healthy");
      ("message", PStr "CAT Tiles API is operational");
      ("gcs_enabled", PBool true);
      ("gdal_config", PDict
         [ ("GDAL_DISABLE_READDIR_ON_OPEN", PStr "EMPTY_DIR");
           ("CPL_VSIL_CURL_ALLOWED_EXTENSIONS", PStr ".tif,.tiff");
           ("GS_NO_SIGN_REQUEST", PStr "YES") ]) ].
Proof.
  apply (health_check_constant
           Demo.unquote Demo.rasterio Demo.tiler
           Demo.cors Demo.unprocessable "/srv/app/images" true
           Demo.json_response Demo.exception_response Demo.uncaught).
  - intros src_path request w. reflexivity.
  - intros origins inner Hinner request. apply Hinner.
  - apply reach_serve, reach_startup.
Defined.

Lemma middleware_same_response_witness :
  fst (log_and_handle_gcs_paths Demo.unquote Demo.info_request
         (cog Demo.tiler Demo.unprocessable) Demo.w0)
  = fst (cog Demo.tiler Demo.unprocessable Demo.info_request Demo.w0).
Proof.
  apply (middleware_same_response Demo.unquote Demo.info_request
           (cog Demo.tiler Demo.unprocessable) Demo.w0).
  apply cog_log_independent.
  intros url request w. exists []. intros l.
  unfold Demo.tiler, set_logged; cbn. by rewrite app_nil_r.
Defined.


Lemma probe_endpoint_defaults_witness :
  opened (snd (endpoint Demo.rasterio Demo.tiler Demo.unprocessable
                 Demo.json_response Demo.exception_response Demo.uncaught
                 EpTestGcs Demo.info_request Demo.w0))
  = [ "gs://nmfs_odp_pifsc/PIFSC/ESD/ARP/StRS_Sites_Products/orthomosaic_cog/2025_GUA-2838_mos_cog.tif" ].
Proof.
  apply (proj2 (probe_endpoint_defaults Demo.rasterio
                  Demo.tiler Demo.unprocessable Demo.json_response
                  Demo.exception_response Demo.uncaught
                  Demo.info_request Demo.w0));
    vm_compute; reflexivity.
Defined.
